(** * Packet codecs of the engine.io parser (parser/packet_codec.go)

    A shallow embedding of the three packet codecs (binary, string and
    base64) together with the part of Go's [encoding/base64] they call,
    and the theorems that relate the embedding to the written
    specification of the package. *)

From Stdlib Require Import Strings.String Strings.Byte.
From Stdlib Require Import ZArith List Bool Lia.
From coqutil Require Import Z.bitblast.
Import ListNotations.
Local Open Scope Z_scope.

(** ** Bytes

    A Go [byte] is one of the 256 constructors of [Byte.byte].  The two
    conversions below are Go's [int(b)] and [byte(z)]; the second one wraps
    around modulo 256. *)

Definition byte_to_Z (b : byte) : Z := Z.of_N (Byte.to_N b).

Definition byte_of_Z (z : Z) : byte :=
  match Byte.of_N (Z.to_N (z mod 256)) with
  | Some b => b
  | None => x00
  end.

(** A Go string literal seen as a byte slice. *)
Definition bytes (s : string) : list byte := list_byte_of_string s.

(** ** Errors

    The Go code builds its errors with [errors.New] and [fmt.Errorf]; one
    constructor stands for each message, carrying the value the message
    prints. *)

Inductive error : Type :=
| EmptyInput                                (* "packet bytes is empty" *)
| InvalidPacketType (v : Z)                 (* "invalid packet type: ..." *)
| InvalidFraming (raw : list byte)          (* "invalid b64 packet: ..." *)
| InvalidPayloadEncoding (offset : Z)       (* base64.CorruptInputError *)
| SinkWriteFailure (code : Z).              (* whatever the io.Writer returns *)

(** A Go result pair [(v, err)] of which exactly one side is meaningful. *)
Inductive result (A : Type) : Type :=
| Ok (v : A)
| Err (e : error).
Arguments Ok {A} v.
Arguments Err {A} e.

(** ** Packet model *)

(** Modelled from the spec: the declarations of [PacketType], of its seven
    constants and of the packet option type live in a file of the package
    that is not part of the sources at hand.  The spec fixes the numbering
    OPEN=0 ... NOOP=6; the integer width is left open, so a type is an
    integer here and every conversion to a byte is written out. *)
Definition PacketType := Z.
Definition PacketOption := Z.

Definition OPEN : PacketType := 0.
Definition CLOSE : PacketType := 1.
Definition PING : PacketType := 2.
Definition PONG : PacketType := 3.
Definition MESSAGE : PacketType := 4.
Definition UPGRADE : PacketType := 5.
Definition NOOP : PacketType := 6.

(** Modelled from the spec: the [Packet] struct (type tag, payload, flag).
    A nil slice and an empty slice are both the empty list: the codecs only
    ever test [Data == nil || len(Data) < 1]. *)
Record Packet : Type := mkPacket {
  Type_ : PacketType;
  Data : list byte;
  Flag : PacketOption
}.

(** Modelled from the spec: the constructor [NewPacketCustom] stores its
    three arguments in a fresh packet. *)
Definition NewPacketCustom (t : PacketType) (data : list byte)
    (flag : PacketOption) : Packet :=
  mkPacket t data flag.

(** The seven members of the enumeration are the numbers 0 to 6. *)
Definition valid_type (t : PacketType) : Prop := 0 <= t <= 6.

Definition valid_typeb (t : PacketType) : bool := (0 <=? t) && (t <=? 6).

(** The ASCII digits '0'..'6' and the digit of a type, as the spec's table
    gives them. *)
Definition is_type_digit (c : byte) : bool :=
  (48 <=? byte_to_Z c) && (byte_to_Z c <=? 54).

Definition type_digit (t : PacketType) : byte := byte_of_Z (48 + t).

Definition digit_type (c : byte) : PacketType := byte_to_Z c - 48.

(** ** Type/char mapping (convertCharToType, convertTypeToChar) *)

Definition convertCharToType (c : byte) : result PacketType :=
  match c with
  | "0"%byte => Ok OPEN
  | "1"%byte => Ok CLOSE
  | "2"%byte => Ok PING
  | "3"%byte => Ok PONG
  | "4"%byte => Ok MESSAGE
  | "5"%byte => Ok UPGRADE
  | "6"%byte => Ok NOOP
  | _ => Err (InvalidPacketType (byte_to_Z c))
  end.

Definition convertTypeToChar (ptype : PacketType) : result byte :=
  if ptype =? OPEN then Ok "0"%byte
  else if ptype =? CLOSE then Ok "1"%byte
  else if ptype =? PING then Ok "2"%byte
  else if ptype =? PONG then Ok "3"%byte
  else if ptype =? MESSAGE then Ok "4"%byte
  else if ptype =? UPGRADE then Ok "5"%byte
  else if ptype =? NOOP then Ok "6"%byte
  else Err (InvalidPacketType ptype).

(** ** Sinks (io.Writer)

    [Write] returns the sink after the call and the error of the call; the
    byte count Go also returns is dropped by every caller in this file. *)

Class Writer (W : Type) : Type := Write : W -> list byte -> W * option error.

(** [bytes.Buffer]: appends, never fails. *)
Record Buffer : Type := mkBuffer { Bytes : list byte }.

Definition new_Buffer : Buffer := mkBuffer [].

#[export] Instance Buffer_Writer : Writer Buffer :=
  fun bf p => (mkBuffer (Bytes bf ++ p), None).

(** A sink that keeps the argument of every [Write] call, oldest first,
    zero-length calls included, and never fails. *)
Record Recorder : Type := mkRecorder { calls : list (list byte) }.

Definition new_Recorder : Recorder := mkRecorder [].

#[export] Instance Recorder_Writer : Writer Recorder :=
  fun r p => (mkRecorder (calls r ++ [p]), None).

(** [w <- Write ... ;; k] is Go's
    [if _, err := writer.Write(...); err != nil { return err }]. *)
Notation "w <- c ;; k" :=
  (match c with
   | (w, None) => k
   | (w, Some err) => (w, Some err)
   end)
  (at level 61, c at next level, right associativity, only parsing).

(** The shared body of the three [encode] methods: run [writeTo] on a fresh
    buffer and hand back its bytes. *)
Definition encode_with (writeTo : Buffer -> Packet -> Buffer * option error)
    (packet : Packet) : result (list byte) :=
  match writeTo new_Buffer packet with
  | (_, Some err) => Err err
  | (bf, None) => Ok (Bytes bf)
  end.

(** ** Go's encoding/base64, standard encoding with padding

    The codec calls [base64.StdEncoding.EncodeToString] and
    [base64.StdEncoding.DecodeString].  Both are transcribed from the Go
    library: the encoder works on groups of three bytes, the decoder reads
    groups of four characters, skips carriage returns and line feeds, and
    reports the offset of the first offending byte. *)

Module base64.

(** What [DecodeString] hands back: the decoded bytes, or a
    [CorruptInputError] with the offset of the offending input byte. *)
Inductive decoded : Type :=
| Decoded (dst : list byte)
| CorruptInputError (offset : Z).

Definition encodeStd : list byte :=
  bytes "ABCDEFGHIJKLMNOPQRSTUVWXYZabcdefghijklmnopqrstuvwxyz0123456789+/".

Definition padChar : byte := "="%byte.

(** [enc.encode[v]] *)
Definition encode_sextet (v : Z) : byte := nth (Z.to_nat v) encodeStd x00.

(** [enc.decodeMap[c]]: the position of [c] in the alphabet, 0xFF for a
    byte outside of it. *)
Fixpoint index_from (c : byte) (alphabet : list byte) (i : Z) : Z :=
  match alphabet with
  | [] => 0xFF
  | a :: alphabet' => if Byte.eqb a c then i else index_from c alphabet' (i + 1)
  end.

Definition decodeMap (c : byte) : Z := index_from c encodeStd 0.

Definition sextet (val shift : Z) : byte :=
  encode_sextet (Z.land (Z.shiftr val shift) 0x3F).

Fixpoint EncodeToString (src : list byte) : list byte :=
  match src with
  | [] => []
  | [s0] =>
      let val := Z.shiftl (byte_to_Z s0) 16 in
      [sextet val 18; sextet val 12; padChar; padChar]
  | [s0; s1] =>
      let val := Z.lor (Z.shiftl (byte_to_Z s0) 16)
                       (Z.shiftl (byte_to_Z s1) 8) in
      [sextet val 18; sextet val 12; sextet val 6; padChar]
  | s0 :: s1 :: s2 :: rest =>
      let val := Z.lor (Z.lor (Z.shiftl (byte_to_Z s0) 16)
                              (Z.shiftl (byte_to_Z s1) 8))
                       (byte_to_Z s2) in
      sextet val 18 :: sextet val 12 :: sextet val 6 :: sextet val 0
        :: EncodeToString rest
  end.

Definition is_newline (c : byte) : bool :=
  Byte.eqb c x0a || Byte.eqb c x0d.

(** The tail of [decodeQuantum]: the first [dlen - 1] bytes of the 24-bit
    value held by the four slots of [dbuf] (a slot not read yet is zero). *)
Definition quantum_bytes (dbuf : list Z) (dlen : nat) : list byte :=
  let val := Z.lor (Z.lor (Z.lor (Z.shiftl (nth 0 dbuf 0) 18)
                                 (Z.shiftl (nth 1 dbuf 0) 12))
                          (Z.shiftl (nth 2 dbuf 0) 6))
                   (nth 3 dbuf 0) in
  firstn (dlen - 1)
    [byte_of_Z (Z.shiftr val 16); byte_of_Z (Z.shiftr val 8); byte_of_Z val].

(** [for si < len(src) && (src[si] == '\n' || src[si] == '\r') { si++ }] *)
Fixpoint skip_newlines (src : list byte) (si : Z) : list byte * Z :=
  match src with
  | c :: rest => if is_newline c then skip_newlines rest (si + 1) else (src, si)
  | [] => ([], si)
  end.

(** After the padding: only newlines may follow. *)
Definition decode_end (src : list byte) (si : Z) (dbuf : list Z) : decoded :=
  match skip_newlines src si with
  | ([], _) => Decoded (quantum_bytes dbuf (length dbuf))
  | (_ :: _, si) => CorruptInputError si
  end.

(** The padding branch of [decodeQuantum]; [si] is the index after the
    first '=' and [dbuf] holds the [j] sextets read before it. *)
Definition decode_padding (src : list byte) (si : Z) (dbuf : list Z)
  : decoded :=
  match length dbuf with
  | 0%nat | 1%nat => CorruptInputError (si - 1)
  | 2%nat =>
      match skip_newlines src si with
      | ([], si) => CorruptInputError si
      | (c :: rest, si) =>
          if Byte.eqb c padChar then decode_end rest (si + 1) dbuf
          else CorruptInputError (si - 1)
      end
  | _ => decode_end src si dbuf
  end.

(** The loop of [Decode] around [decodeQuantum], as one recursion over the
    input: [si] is the index of the next byte and [dbuf] the sextets of the
    quantum under way, so that [j = length dbuf]. *)
Fixpoint Decode (src : list byte) (si : Z) (dbuf : list Z) : decoded :=
  match src with
  | [] =>
      match dbuf with
      | [] => Decoded []
      | _ :: _ => CorruptInputError (si - Z.of_nat (length dbuf))
      end
  | c :: rest =>
      let si := si + 1 in
      let out := decodeMap c in
      if negb (out =? 0xFF) then
        let dbuf := dbuf ++ [out] in
        if (length dbuf =? 4)%nat then
          match Decode rest si [] with
          | Decoded tail => Decoded (quantum_bytes dbuf 4 ++ tail)
          | CorruptInputError offset => CorruptInputError offset
          end
        else Decode rest si dbuf
      else if is_newline c then Decode rest si dbuf
      else if negb (Byte.eqb c padChar) then CorruptInputError (si - 1)
      else decode_padding rest si dbuf
  end.

Definition DecodeString (s : list byte) : decoded := Decode s 0 [].

(** A byte the decoder has no use for: outside the alphabet, not a newline
    and not the padding character. *)
Definition foreign (c : byte) : bool :=
  (decodeMap c =? 0xFF) && negb (is_newline c) && negb (Byte.eqb c padChar).

End base64.

(** ** The three codecs *)

Section Codecs.

(** Modelled from the spec: the constant [BINARY] marks a payload that was
    carried in binary form.  Its declaration is not part of the sources at
    hand, so its value is a parameter of the development. *)
Variable BINARY : PacketOption.

(** *** binCodec *)

Definition binCodec_decode (data : list byte) : result Packet :=
  match data with
  | [] => Err EmptyInput
  | d0 :: rest =>
      let t : PacketType := byte_to_Z d0 in
      if existsb (Z.eqb t) [OPEN; CLOSE; PING; PONG; MESSAGE; UPGRADE; NOOP]
      then Ok (NewPacketCustom t rest BINARY)
      else Err (InvalidPacketType t)
  end.

Definition binCodec_writeTo {W : Type} `{Writer W} (writer : W)
    (packet : Packet) : W * option error :=
  writer <- Write writer [byte_of_Z (Type_ packet)] ;;
  if (length (Data packet) <? 1)%nat then (writer, None)
  else Write writer (Data packet).

Definition binCodec_encode (packet : Packet) : result (list byte) :=
  encode_with binCodec_writeTo packet.

(** *** strCodec *)

Definition strCodec_decode (data : list byte) : result Packet :=
  match data with
  | [] => Err EmptyInput
  | d0 :: rest =>
      match convertCharToType d0 with
      | Err err => Err err
      | Ok t => Ok (NewPacketCustom t rest 0)
      end
  end.

Definition strCodec_writeTo {W : Type} `{Writer W} (writer : W)
    (packet : Packet) : W * option error :=
  match convertTypeToChar (Type_ packet) with
  | Err err => (writer, Some err)
  | Ok t =>
      writer <- Write writer [t] ;;
      Write writer (Data packet)
  end.

Definition strCodec_encode (packet : Packet) : result (list byte) :=
  encode_with strCodec_writeTo packet.

(** *** b64Codec *)

Definition b64Codec_decode (data : list byte) : result Packet :=
  match data with
  | [] => Err EmptyInput
  | [d0] =>
      match convertCharToType d0 with
      | Err err => Err err
      | Ok t => Ok (NewPacketCustom t [] BINARY)
      end
  | d0 :: d1 :: body =>
      if negb (Byte.eqb d0 "b"%byte) then Err (InvalidFraming data)
      else
        match convertCharToType d1 with
        | Err err => Err err
        | Ok t =>
            match base64.DecodeString body with
            | base64.CorruptInputError offset =>
                Err (InvalidPayloadEncoding offset)
            | base64.Decoded data => Ok (NewPacketCustom t data BINARY)
            end
        end
  end.

Definition b64Codec_writeTo {W : Type} `{Writer W} (writer : W)
    (packet : Packet) : W * option error :=
  match convertTypeToChar (Type_ packet) with
  | Err err => (writer, Some err)
  | Ok t =>
      if (length (Data packet) <? 1)%nat then
        writer <- Write writer [t] ;;
        (writer, None)
      else
        writer <- Write writer ["b"%byte] ;;
        writer <- Write writer [t] ;;
        let body := base64.EncodeToString (Data packet) in
        Write writer body
  end.

Definition b64Codec_encode (packet : Packet) : result (list byte) :=
  encode_with b64Codec_writeTo packet.

(** *** The codec interface and its three instances *)

Record packetCodec : Type := mkCodec {
  decode : list byte -> result Packet;
  encode : Packet -> result (list byte);
  writeTo : forall W : Type, Writer W -> W -> Packet -> W * option error
}.

Definition stringEncoder : packetCodec :=
  mkCodec strCodec_decode strCodec_encode (@strCodec_writeTo).

Definition binaryEncoder : packetCodec :=
  mkCodec binCodec_decode binCodec_encode (@binCodec_writeTo).

Definition base64Encoder : packetCodec :=
  mkCodec b64Codec_decode b64Codec_encode (@b64Codec_writeTo).

(** The flag each decoder stores in the packets it builds. *)
Definition codec_flags : list (packetCodec * PacketOption) :=
  [(binaryEncoder, BINARY); (stringEncoder, 0); (base64Encoder, BINARY)].

(** Encode, then decode what was written. *)
Definition roundtrip (c : packetCodec) (packet : Packet) : result Packet :=
  match encode c packet with
  | Ok wire => decode c wire
  | Err err => Err err
  end.

End Codecs.

(** ** Notions used to state further properties *)

(** The three codec instances, for a given value of [BINARY]. *)
Definition codecs (BINARY : PacketOption) : list packetCodec :=
  [binaryEncoder BINARY; stringEncoder; base64Encoder BINARY].

(** Hand a sequence of buffers to a sink, one [Write] call each, and stop at
    the first call the sink rejects. *)
Fixpoint write_all {W : Type} `{Writer W} (writer : W)
    (bufs : list (list byte)) : W * option error :=
  match bufs with
  | [] => (writer, None)
  | p :: bufs' =>
      match Write writer p with
      | (writer', None) => write_all writer' bufs'
      | (writer', Some err) => (writer', Some err)
      end
  end.

(** The [Write] calls a codec makes for a packet, as a sink that never fails
    sees them. *)
Definition write_calls (c : packetCodec) (packet : Packet)
    : list (list byte) :=
  calls (fst (writeTo c Recorder Recorder_Writer new_Recorder packet)).

(** A sink that accepts [room] more calls and rejects every later one. *)
Record Flaky : Type := mkFlaky { room : nat; accepted : list byte }.

#[export] Instance Flaky_Writer : Writer Flaky :=
  fun f p =>
    match room f with
    | O => (f, Some (SinkWriteFailure 1))
    | S n => (mkFlaky n (accepted f ++ p), None)
    end.

(** An input with its carriage returns and line feeds taken out. *)
Definition strip_newlines (s : list byte) : list byte :=
  filter (fun c => negb (base64.is_newline c)) s.

(** Two results of the base64 decoder that agree up to the offset of the error. *)
Definition same_outcome (a b : base64.decoded) : Prop :=
  match a, b with
  | base64.Decoded x, base64.Decoded y => x = y
  | base64.CorruptInputError _, base64.CorruptInputError _ => True
  | _, _ => False
  end.

(** A byte of the base64 alphabet, or the padding character. *)
Definition base64_text (c : byte) : bool :=
  negb (base64.decodeMap c =? 0xFF) || Byte.eqb c base64.padChar.

(** * Properties *)

(** ** Bytes *)

Lemma byte_to_Z_range (b : byte) : 0 <= byte_to_Z b < 256.
Proof.
  unfold byte_to_Z. pose proof (Byte.to_N_bounded b) as Hb. lia.
Qed.

Lemma byte_of_to_Z (b : byte) : byte_of_Z (byte_to_Z b) = b.
Proof.
  unfold byte_of_Z. rewrite Z.mod_small by apply byte_to_Z_range.
  unfold byte_to_Z. rewrite N2Z.id, Byte.of_to_N. reflexivity.
Qed.

Lemma byte_to_of_Z (z : Z) : 0 <= z < 256 -> byte_to_Z (byte_of_Z z) = z.
Proof.
  intros Hz. unfold byte_of_Z, byte_to_Z. rewrite Z.mod_small by assumption.
  destruct (Byte.of_N (Z.to_N z)) as [b|] eqn:E.
  - apply Byte.to_of_N in E. rewrite E. lia.
  - apply Byte.of_N_None_iff in E. lia.
Qed.

Lemma byte_of_Z_mod (z : Z) : byte_of_Z (z mod 256) = byte_of_Z z.
Proof. unfold byte_of_Z. rewrite Z.mod_mod by lia. reflexivity. Qed.

(** ** The type/char table *)

Lemma convertCharToType_spec (c : byte) :
  convertCharToType c =
  if is_type_digit c then Ok (digit_type c)
  else Err (InvalidPacketType (byte_to_Z c)).
Proof. destruct c; reflexivity. Qed.

Lemma valid_type_cases (t : PacketType) :
  valid_type t ->
  t = OPEN \/ t = CLOSE \/ t = PING \/ t = PONG \/ t = MESSAGE \/
  t = UPGRADE \/ t = NOOP.
Proof. unfold valid_type, OPEN, CLOSE, PING, PONG, MESSAGE, UPGRADE, NOOP. lia. Qed.

Lemma valid_typeb_spec (t : PacketType) : valid_typeb t = true <-> valid_type t.
Proof. unfold valid_typeb, valid_type. lia. Qed.

Lemma convertTypeToChar_valid (t : PacketType) :
  valid_type t -> convertTypeToChar t = Ok (type_digit t).
Proof.
  intros Ht.
  destruct (valid_type_cases t Ht) as [E|[E|[E|[E|[E|[E|E]]]]]];
    subst t; reflexivity.
Qed.

Lemma convertTypeToChar_invalid (t : PacketType) :
  ~ valid_type t -> convertTypeToChar t = Err (InvalidPacketType t).
Proof.
  unfold valid_type, convertTypeToChar, OPEN, CLOSE, PING, PONG, MESSAGE,
    UPGRADE, NOOP.
  intros Ht.
  repeat match goal with
         | |- context [?a =? ?b] => destruct (Z.eqb_spec a b); [lia|]
         end.
  reflexivity.
Qed.

Lemma convertTypeToChar_spec (t : PacketType) :
  convertTypeToChar t =
  if valid_typeb t then Ok (type_digit t) else Err (InvalidPacketType t).
Proof.
  destruct (valid_typeb t) eqn:E.
  - apply convertTypeToChar_valid, valid_typeb_spec, E.
  - apply convertTypeToChar_invalid. rewrite <- valid_typeb_spec. congruence.
Qed.

Lemma type_digit_is_digit (t : PacketType) :
  valid_type t -> is_type_digit (type_digit t) = true.
Proof.
  intros Ht.
  destruct (valid_type_cases t Ht) as [E|[E|[E|[E|[E|[E|E]]]]]];
    subst t; reflexivity.
Qed.

Lemma digit_type_digit (t : PacketType) :
  valid_type t -> digit_type (type_digit t) = t.
Proof.
  intros Ht. unfold digit_type, type_digit, valid_type in *.
  rewrite byte_to_of_Z; lia.
Qed.

Lemma convertCharToType_digit (t : PacketType) :
  valid_type t -> convertCharToType (type_digit t) = Ok t.
Proof.
  intros Ht. rewrite convertCharToType_spec, type_digit_is_digit by assumption.
  rewrite digit_type_digit by assumption. reflexivity.
Qed.

Lemma binary_type_byte (t : PacketType) :
  valid_type t -> byte_to_Z (byte_of_Z t) = t.
Proof. unfold valid_type. intros Ht. apply byte_to_of_Z. lia. Qed.

(** ** Go's base64: decoding what the encoder wrote gives the bytes back *)

Module Base64Facts.
Import base64.

Lemma byte_to_Z_land (b : byte) : byte_to_Z b = Z.land (byte_to_Z b) (Z.ones 8).
Proof.
  rewrite Z.land_ones by lia. symmetry. apply Z.mod_small, byte_to_Z_range.
Qed.

Lemma byte_of_Z_bits (z : Z) (b : byte) :
  Z.land z (Z.ones 8) = byte_to_Z b -> byte_of_Z z = b.
Proof.
  rewrite Z.land_ones by lia. intros E.
  rewrite <- (byte_of_to_Z b), <- E. symmetry. apply byte_of_Z_mod.
Qed.

(** Open a goal [byte_of_Z e = b] into an equation between bit patterns in
    which every byte is masked to its eight bits. *)
Ltac byte_bits :=
  apply byte_of_Z_bits;
  repeat match goal with
         | |- context [byte_to_Z ?b] =>
             let z := fresh "z" in
             let Hz := fresh "Hz" in
             pose proof (byte_to_Z_land b) as Hz;
             set (z := byte_to_Z b) in *; clearbody z;
             rewrite Hz; clear Hz
         end;
  change 0x3F with (Z.ones 6);
  Z.bitblast.

Lemma sextet_range (val shift : Z) : 0 <= Z.land (Z.shiftr val shift) 0x3F < 64.
Proof.
  change 0x3F with (Z.ones 6). rewrite Z.land_ones by lia.
  apply Z.mod_pos_bound. lia.
Qed.


Lemma pack_four (val : Z) :
  Z.lor (Z.lor (Z.lor (Z.shiftl (Z.land (Z.shiftr val 18) 0x3F) 18)
                      (Z.shiftl (Z.land (Z.shiftr val 12) 0x3F) 12))
               (Z.shiftl (Z.land (Z.shiftr val 6) 0x3F) 6))
        (Z.land (Z.shiftr val 0) 0x3F)
  = Z.land val (Z.ones 24).
Proof. change 0x3F with (Z.ones 6). Z.bitblast. Qed.

Lemma pack_three (val : Z) :
  Z.lor (Z.lor (Z.lor (Z.shiftl (Z.land (Z.shiftr val 18) 0x3F) 18)
                      (Z.shiftl (Z.land (Z.shiftr val 12) 0x3F) 12))
               (Z.shiftl (Z.land (Z.shiftr val 6) 0x3F) 6))
        0
  = Z.land val (Z.shiftl (Z.ones 18) 6).
Proof. change 0x3F with (Z.ones 6). Z.bitblast. Qed.

Lemma pack_two (val : Z) :
  Z.lor (Z.lor (Z.lor (Z.shiftl (Z.land (Z.shiftr val 18) 0x3F) 18)
                      (Z.shiftl (Z.land (Z.shiftr val 12) 0x3F) 12))
               (Z.shiftl 0 6))
        0
  = Z.land val (Z.shiftl (Z.ones 12) 12).
Proof. change 0x3F with (Z.ones 6). Z.bitblast. Qed.

Lemma quantum_bytes_full (s0 s1 s2 : byte) :
  let val := Z.lor (Z.lor (Z.shiftl (byte_to_Z s0) 16)
                          (Z.shiftl (byte_to_Z s1) 8))
                   (byte_to_Z s2) in
  quantum_bytes [Z.land (Z.shiftr val 18) 0x3F; Z.land (Z.shiftr val 12) 0x3F;
                 Z.land (Z.shiftr val 6) 0x3F; Z.land (Z.shiftr val 0) 0x3F] 4
  = [s0; s1; s2].
Proof.
  intros val. unfold quantum_bytes. cbn [nth firstn Nat.sub].
  rewrite pack_four. subst val.
  f_equal; [|f_equal; [|f_equal]]; byte_bits.
Qed.

Lemma quantum_bytes_two (s0 s1 : byte) :
  let val := Z.lor (Z.shiftl (byte_to_Z s0) 16) (Z.shiftl (byte_to_Z s1) 8) in
  quantum_bytes [Z.land (Z.shiftr val 18) 0x3F; Z.land (Z.shiftr val 12) 0x3F;
                 Z.land (Z.shiftr val 6) 0x3F] 3
  = [s0; s1].
Proof.
  intros val. unfold quantum_bytes. cbn [nth firstn Nat.sub].
  rewrite pack_three. subst val.
  f_equal; [|f_equal]; byte_bits.
Qed.

Lemma quantum_bytes_one (s0 : byte) :
  let val := Z.shiftl (byte_to_Z s0) 16 in
  quantum_bytes [Z.land (Z.shiftr val 18) 0x3F; Z.land (Z.shiftr val 12) 0x3F] 2
  = [s0].
Proof.
  intros val. unfold quantum_bytes. cbn [nth firstn Nat.sub].
  rewrite pack_two. subst val.
  f_equal; byte_bits.
Qed.


Lemma decodeMap_encode_sextet (v : Z) :
  0 <= v < 64 -> decodeMap (encode_sextet v) = v.
Proof.
  intros Hv.
  assert (H : forallb (fun v => decodeMap (encode_sextet v) =? v)
                (map Z.of_nat (seq 0 64)) = true) by (vm_compute; reflexivity).
  rewrite forallb_forall in H. apply Z.eqb_eq, H.
  rewrite <- (Z2Nat.id v) by lia. apply in_map, in_seq. lia.
Qed.

Lemma Decode_sextet (v : Z) (rest : list byte) (si : Z) (dbuf : list Z) :
  0 <= v < 64 ->
  Decode (encode_sextet v :: rest) si dbuf =
  if (length (dbuf ++ [v]) =? 4)%nat then
    match Decode rest (si + 1) [] with
    | Decoded tail => Decoded (quantum_bytes (dbuf ++ [v]) 4 ++ tail)
    | CorruptInputError offset => CorruptInputError offset
    end
  else Decode rest (si + 1) (dbuf ++ [v]).
Proof.
  intros Hv. cbn [Decode]. rewrite decodeMap_encode_sextet by assumption.
  destruct (Z.eqb_spec v 0xFF); [lia|]. reflexivity.
Qed.

Lemma Decode_padChar (rest : list byte) (si : Z) (dbuf : list Z) :
  Decode (padChar :: rest) si dbuf = decode_padding rest (si + 1) dbuf.
Proof. reflexivity. Qed.

Lemma list_ind3 {A : Type} (P : list A -> Prop) :
  P [] -> (forall a, P [a]) -> (forall a b, P [a; b]) ->
  (forall a b c l, P l -> P (a :: b :: c :: l)) ->
  forall l, P l.
Proof.
  intros H0 H1 H2 H3 l.
  assert (H : P l /\ (forall a, P (a :: l)) /\ (forall a b, P (a :: b :: l))).
  { induction l as [|x l [IH0 [IH1 IH2]]]; repeat split; auto. }
  apply H.
Qed.

Lemma Decode_EncodeToString (src : list byte) :
  forall si, Decode (EncodeToString src) si [] = Decoded src.
Proof.
  induction src as [|s0|s0 s1|s0 s1 s2 rest IH] using list_ind3; intros si.
  - reflexivity.
  - cbn [EncodeToString]. unfold sextet.
    do 2 (rewrite Decode_sextet by apply sextet_range; cbn [app length Nat.eqb]).
    rewrite Decode_padChar. unfold decode_padding. cbn [length skip_newlines].
    change (is_newline padChar) with false. cbv iota.
    change (Byte.eqb padChar padChar) with true. cbv iota.
    unfold decode_end. cbn [skip_newlines length].
    rewrite quantum_bytes_one. reflexivity.
  - cbn [EncodeToString]. unfold sextet.
    do 3 (rewrite Decode_sextet by apply sextet_range; cbn [app length Nat.eqb]).
    rewrite Decode_padChar. unfold decode_padding, decode_end.
    cbn [length skip_newlines].
    rewrite quantum_bytes_two. reflexivity.
  - cbn [EncodeToString]. unfold sextet.
    do 4 (rewrite Decode_sextet by apply sextet_range; cbn [app length Nat.eqb]).
    rewrite IH, quantum_bytes_full. reflexivity.
Qed.

Lemma DecodeString_EncodeToString (src : list byte) :
  DecodeString (EncodeToString src) = Decoded src.
Proof. apply Decode_EncodeToString. Qed.

Lemma EncodeToString_nonempty (src : list byte) :
  src <> [] -> EncodeToString src <> [].
Proof.
  destruct src as [|s0 [|s1 [|s2 rest]]]; [congruence|..];
    intros _; cbn [EncodeToString]; discriminate.
Qed.

(** A byte outside the alphabet that is neither a newline nor the padding
    character makes the whole input corrupt, wherever it stands. *)

Lemma skip_newlines_foreign (src : list byte) (si : Z) :
  existsb foreign src = true ->
  exists c rest si',
    skip_newlines src si = (c :: rest, si') /\
    existsb foreign (c :: rest) = true.
Proof.
  revert si. induction src as [|c src IH]; intros si H; [discriminate|].
  cbn [skip_newlines]. destruct (is_newline c) eqn:En.
  - apply IH. cbn [existsb] in H. unfold foreign at 1 in H.
    rewrite En, andb_false_r in H. exact H.
  - exists c, src, si. split; [reflexivity | exact H].
Qed.

Lemma decode_end_foreign (src : list byte) (si : Z) (dbuf : list Z) :
  existsb foreign src = true ->
  exists offset, decode_end src si dbuf = CorruptInputError offset.
Proof.
  intros H. unfold decode_end.
  destruct (skip_newlines_foreign src si H) as (c & rest & si' & -> & _).
  eauto.
Qed.

Lemma decode_padding_foreign (src : list byte) (si : Z) (dbuf : list Z) :
  existsb foreign src = true ->
  exists offset, decode_padding src si dbuf = CorruptInputError offset.
Proof.
  intros H. unfold decode_padding.
  destruct (length dbuf) as [|[|[|n]]]; eauto using decode_end_foreign.
  destruct (skip_newlines_foreign src si H) as (c & rest & si' & -> & Hf).
  destruct (Byte.eqb c padChar) eqn:Ep; [|eauto].
  apply decode_end_foreign. cbn [existsb] in Hf. unfold foreign at 1 in Hf.
  rewrite Ep, andb_false_r in Hf. exact Hf.
Qed.

Lemma Decode_foreign (src : list byte) :
  forall (si : Z) (dbuf : list Z),
  existsb foreign src = true ->
  exists offset, Decode src si dbuf = CorruptInputError offset.
Proof.
  induction src as [|c src IH]; intros si dbuf H; [discriminate|].
  cbn [existsb] in H. unfold foreign at 1 in H. cbn [Decode].
  destruct (decodeMap c =? 0xFF) eqn:Em; cbn [negb].
  - destruct (is_newline c) eqn:En; [apply IH, H|].
    destruct (Byte.eqb c padChar) eqn:Ep; cbn [negb]; [|eauto].
    apply decode_padding_foreign, H.
  - cbn [andb orb] in H.
    destruct (length (dbuf ++ [decodeMap c]) =? 4)%nat; [|apply IH, H].
    destruct (IH (si + 1) [] H) as [offset ->]. eauto.
Qed.

Lemma DecodeString_foreign (s : list byte) :
  existsb foreign s = true ->
  exists offset, DecodeString s = CorruptInputError offset.
Proof. apply Decode_foreign. Qed.

End Base64Facts.

(** ** What each codec writes *)

Lemma binCodec_encode_bytes (p : Packet) :
  binCodec_encode p = Ok (byte_of_Z (Type_ p) :: Data p).
Proof.
  destruct p as [t data flag]. unfold binCodec_encode, encode_with.
  destruct data as [|d data]; reflexivity.
Qed.

Lemma strCodec_encode_bytes (p : Packet) :
  valid_type (Type_ p) ->
  strCodec_encode p = Ok (type_digit (Type_ p) :: Data p).
Proof.
  intros Ht. unfold strCodec_encode, encode_with, strCodec_writeTo.
  rewrite convertTypeToChar_valid by assumption. reflexivity.
Qed.

Lemma b64Codec_encode_bytes (p : Packet) :
  valid_type (Type_ p) ->
  b64Codec_encode p =
  Ok match Data p with
     | [] => [type_digit (Type_ p)]
     | _ :: _ =>
         "b"%byte :: type_digit (Type_ p) :: base64.EncodeToString (Data p)
     end.
Proof.
  intros Ht. unfold b64Codec_encode, encode_with, b64Codec_writeTo.
  rewrite convertTypeToChar_valid by assumption.
  destruct (Data p) as [|d data]; reflexivity.
Qed.

(** The string and base64 codecs turn down a type outside the enumeration
    before they touch the sink, whatever the sink is. *)
Lemma strCodec_writeTo_invalid_type {W : Type} `{Writer W} (writer : W)
    (p : Packet) :
  ~ valid_type (Type_ p) ->
  strCodec_writeTo writer p = (writer, Some (InvalidPacketType (Type_ p))).
Proof.
  intros Ht. unfold strCodec_writeTo.
  rewrite convertTypeToChar_invalid by assumption. reflexivity.
Qed.

Lemma b64Codec_writeTo_invalid_type {W : Type} `{Writer W} (writer : W)
    (p : Packet) :
  ~ valid_type (Type_ p) ->
  b64Codec_writeTo writer p = (writer, Some (InvalidPacketType (Type_ p))).
Proof.
  intros Ht. unfold b64Codec_writeTo.
  rewrite convertTypeToChar_invalid by assumption. reflexivity.
Qed.

(** ** What each codec reads *)

Lemma binCodec_decode_cons (BINARY : PacketOption) (d0 : byte)
    (rest : list byte) :
  binCodec_decode BINARY (d0 :: rest) =
  if valid_typeb (byte_to_Z d0)
  then Ok (mkPacket (byte_to_Z d0) rest BINARY)
  else Err (InvalidPacketType (byte_to_Z d0)).
Proof. destruct d0; reflexivity. Qed.

Lemma strCodec_decode_cons (d0 : byte) (rest : list byte) :
  strCodec_decode (d0 :: rest) =
  if is_type_digit d0
  then Ok (mkPacket (digit_type d0) rest 0)
  else Err (InvalidPacketType (byte_to_Z d0)).
Proof.
  cbn [strCodec_decode]. rewrite convertCharToType_spec.
  destruct (is_type_digit d0); reflexivity.
Qed.

Lemma b64Codec_decode_one (BINARY : PacketOption) (d0 : byte) :
  b64Codec_decode BINARY [d0] =
  if is_type_digit d0
  then Ok (mkPacket (digit_type d0) [] BINARY)
  else Err (InvalidPacketType (byte_to_Z d0)).
Proof.
  cbn [b64Codec_decode]. rewrite convertCharToType_spec.
  destruct (is_type_digit d0); reflexivity.
Qed.

Lemma b64Codec_decode_long (BINARY : PacketOption) (d0 d1 : byte)
    (body : list byte) :
  b64Codec_decode BINARY (d0 :: d1 :: body) =
  if negb (Byte.eqb d0 "b"%byte) then Err (InvalidFraming (d0 :: d1 :: body))
  else if negb (is_type_digit d1) then Err (InvalidPacketType (byte_to_Z d1))
  else match base64.DecodeString body with
       | base64.CorruptInputError offset => Err (InvalidPayloadEncoding offset)
       | base64.Decoded payload => Ok (mkPacket (digit_type d1) payload BINARY)
       end.
Proof.
  cbn [b64Codec_decode]. rewrite convertCharToType_spec.
  destruct (Byte.eqb d0 "b"%byte), (is_type_digit d1); reflexivity.
Qed.

(** ** The claims of the specification *)

(** C1, as the specification words it, fails: the string codec reads the
    packet [{MESSAGE, "hello", Flag = 1}] back with [Flag = 0], although
    the payload is not empty and the codec is not the base64 one. *)
Lemma roundtrip_loses_flag :
  valid_type MESSAGE /\
  roundtrip stringEncoder (mkPacket MESSAGE (bytes "hello") 1)
    = Ok (mkPacket MESSAGE (bytes "hello") 0) /\
  roundtrip stringEncoder (mkPacket MESSAGE (bytes "hello") 1)
    <> Ok (mkPacket MESSAGE (bytes "hello") 1).
Proof.
  split; [unfold valid_type, MESSAGE; lia|].
  split; [reflexivity|]. cbv. discriminate.
Qed.

(** C1, amended: for a packet with a valid type, each codec reads back what
    it wrote with the type and the payload of the packet, and with the flag
    of the codec ([BINARY] for the binary and the base64 codec, for an
    empty payload as for any other; zero for the string codec) in place of
    the packet's own.  So the packet read back equals the packet written
    exactly when its flag already was the codec's. *)
Theorem roundtrip_type_and_data (BINARY : PacketOption) (p : Packet)
    (c : packetCodec) (flag : PacketOption) :
  valid_type (Type_ p) ->
  In (c, flag) (codec_flags BINARY) ->
  roundtrip c p = Ok (mkPacket (Type_ p) (Data p) flag) /\
  (roundtrip c p = Ok p <-> Flag p = flag).
Proof.
  intros Ht Hc.
  assert (E : roundtrip c p = Ok (mkPacket (Type_ p) (Data p) flag)).
  { destruct Hc as [Hc|[Hc|[Hc|[]]]]; injection Hc as <- <-;
      unfold roundtrip; cbn [encode decode binaryEncoder stringEncoder
                               base64Encoder].
    - rewrite binCodec_encode_bytes, binCodec_decode_cons.
      rewrite binary_type_byte by assumption.
      apply valid_typeb_spec in Ht. rewrite Ht. reflexivity.
    - rewrite strCodec_encode_bytes, strCodec_decode_cons by assumption.
      rewrite type_digit_is_digit, digit_type_digit by assumption.
      reflexivity.
    - rewrite b64Codec_encode_bytes by assumption.
      destruct (Data p) as [|d data] eqn:Ed.
      + rewrite b64Codec_decode_one.
        rewrite type_digit_is_digit, digit_type_digit by assumption.
        reflexivity.
      + rewrite b64Codec_decode_long. cbn [Byte.eqb negb].
        change (Byte.eqb "b" "b") with true. cbn [negb].
        rewrite type_digit_is_digit, digit_type_digit by assumption.
        cbn [negb]. rewrite Base64Facts.DecodeString_EncodeToString.
        reflexivity. }
  split; [exact E|]. rewrite E. destruct p as [t data f]. cbn [Type_ Data Flag].
  split; [intros H; injection H; auto | intros <-; reflexivity].
Qed.

Lemma roundtrip_type_and_data_witness :
  valid_type OPEN /\
  In (base64Encoder 1, 1) (codec_flags 1) /\
  roundtrip (base64Encoder 1) (mkPacket OPEN (bytes "abc") 0)
    = Ok (mkPacket OPEN (bytes "abc") 1).
Proof.
  assert (Ht : valid_type OPEN) by (unfold valid_type, OPEN; lia).
  assert (Hc : In (base64Encoder 1, 1) (codec_flags 1))
    by (simpl; auto).
  split; [exact Ht|]. split; [exact Hc|].
  exact (proj1 (roundtrip_type_and_data 1 (mkPacket OPEN (bytes "abc") 0)
                  (base64Encoder 1) 1 Ht Hc)).
Defined.

(** C2: the binary codec does not look at the type it is given.  For the
    packet [{Type: 7, Data: nil}], whose type is outside the enumeration,
    [writeTo] calls the sink once with the byte 7 and reports no error, and
    [encode] returns that byte; the string and the base64 codec refuse the
    same packet, and the binary decoder refuses the byte just written. *)
Theorem binCodec_serializes_invalid_type (BINARY : PacketOption) :
  ~ valid_type 7 /\
  binCodec_writeTo new_Recorder (mkPacket 7 [] 0)
    = (mkRecorder [[x07]], None) /\
  binCodec_encode (mkPacket 7 [] 0) = Ok [x07] /\
  strCodec_encode (mkPacket 7 [] 0) = Err (InvalidPacketType 7) /\
  b64Codec_encode (mkPacket 7 [] 0) = Err (InvalidPacketType 7) /\
  binCodec_decode BINARY [x07] = Err (InvalidPacketType 7).
Proof.
  split; [unfold valid_type; lia|]. repeat split; reflexivity.
Qed.

(** C3: on a one-byte input the base64 decoder answers with the type of the
    digit, an empty payload and the flag [BINARY] when the byte is one of
    '0'..'6', and with InvalidPacketType otherwise. *)
Theorem b64Codec_decode_short_form (BINARY : PacketOption) (d0 : byte) :
  b64Codec_decode BINARY [d0] =
  if is_type_digit d0
  then Ok (mkPacket (digit_type d0) [] BINARY)
  else Err (InvalidPacketType (byte_to_Z d0)).
Proof. apply b64Codec_decode_one. Qed.

(** C4: on an input of two bytes or more the base64 decoder fails with
    InvalidFraming (holding the whole input) when byte 0 is not 'b', else
    with InvalidPacketType when byte 1 is not one of '0'..'6', else with
    InvalidPayloadEncoding when Go's standard base64 decoder rejects the
    bytes from index 2 on; otherwise it answers with the type of the digit,
    the decoded bytes and the flag [BINARY].  "x4" is a framing error,
    "b4!!!" a payload error, and "b4aGVsbG8=" is MESSAGE "hello". *)
Theorem b64Codec_decode_long_form (BINARY : PacketOption) (d0 d1 : byte)
    (body : list byte) :
  b64Codec_decode BINARY (d0 :: d1 :: body) =
  (if negb (Byte.eqb d0 "b"%byte) then Err (InvalidFraming (d0 :: d1 :: body))
   else if negb (is_type_digit d1) then Err (InvalidPacketType (byte_to_Z d1))
   else match base64.DecodeString body with
        | base64.CorruptInputError offset =>
            Err (InvalidPayloadEncoding offset)
        | base64.Decoded payload =>
            Ok (mkPacket (digit_type d1) payload BINARY)
        end) /\
  b64Codec_decode BINARY (bytes "x4") = Err (InvalidFraming (bytes "x4")) /\
  b64Codec_decode BINARY (bytes "b4!!!") = Err (InvalidPayloadEncoding 0) /\
  b64Codec_decode BINARY (bytes "b4aGVsbG8=")
    = Ok (mkPacket MESSAGE (bytes "hello") BINARY).
Proof.
  split; [apply b64Codec_decode_long|]. repeat split; reflexivity.
Qed.

(** C5: for a packet with a valid type the base64 encoder writes the digit
    of the type alone when the payload is empty, and 'b', the digit and the
    padded base64 text of the payload otherwise. *)
Theorem b64Codec_encode_wire (p : Packet) :
  valid_type (Type_ p) ->
  b64Codec_encode p =
  Ok match Data p with
     | [] => [type_digit (Type_ p)]
     | _ :: _ =>
         "b"%byte :: type_digit (Type_ p) :: base64.EncodeToString (Data p)
     end.
Proof. apply b64Codec_encode_bytes. Qed.

(** The two examples of C5: OPEN "abc" is written as "b0YWJj", NOOP with
    no payload as "6". *)
Lemma b64Codec_encode_wire_witness :
  (valid_type OPEN /\
   b64Codec_encode (mkPacket OPEN (bytes "abc") 0) = Ok (bytes "b0YWJj")) /\
  (valid_type NOOP /\
   b64Codec_encode (mkPacket NOOP [] 0) = Ok (bytes "6")).
Proof.
  assert (H0 : valid_type OPEN) by (unfold valid_type, OPEN; lia).
  assert (H6 : valid_type NOOP) by (unfold valid_type, NOOP; lia).
  split; (split; [assumption|]).
  - exact (b64Codec_encode_wire (mkPacket OPEN (bytes "abc") 0) H0).
  - exact (b64Codec_encode_wire (mkPacket NOOP [] 0) H6).
Defined.

(** C6: on a non-empty input the binary decoder takes byte 0 as the number
    of the type, not as its digit: when it is one of 0..6 the answer is that
    type, the remaining bytes and the flag [BINARY], otherwise
    InvalidPacketType.  A first byte 7 is refused, and so is the digit '2'
    (the number 50). *)
Theorem binCodec_decode_raw_type (BINARY : PacketOption) (d0 : byte)
    (rest : list byte) :
  binCodec_decode BINARY (d0 :: rest) =
  (if valid_typeb (byte_to_Z d0)
   then Ok (mkPacket (byte_to_Z d0) rest BINARY)
   else Err (InvalidPacketType (byte_to_Z d0))) /\
  binCodec_decode BINARY (x07 :: rest) = Err (InvalidPacketType 7) /\
  binCodec_decode BINARY ("2"%byte :: rest) = Err (InvalidPacketType 50).
Proof.
  split; [apply binCodec_decode_cons|]. split; reflexivity.
Qed.

(** C7: for a packet with a valid type the binary encoder calls the sink
    with one byte, whose value is the number of the type, and then with the
    payload when there is one; with an empty payload there is no second
    call.  The bytes written are the type byte followed by the payload. *)
Theorem binCodec_writeTo_wire (p : Packet) :
  valid_type (Type_ p) ->
  byte_to_Z (byte_of_Z (Type_ p)) = Type_ p /\
  binCodec_writeTo new_Recorder p
    = (mkRecorder match Data p with
                  | [] => [[byte_of_Z (Type_ p)]]
                  | _ :: _ => [[byte_of_Z (Type_ p)]; Data p]
                  end, None) /\
  binCodec_encode p = Ok (byte_of_Z (Type_ p) :: Data p).
Proof.
  intros Ht. split; [apply binary_type_byte, Ht|].
  split; [|apply binCodec_encode_bytes].
  destruct p as [t [|d data] f]; reflexivity.
Qed.

(** The example of C7: PING with no payload is the single byte 2, written
    in a single call. *)
Lemma binCodec_writeTo_wire_witness :
  valid_type PING /\
  binCodec_writeTo new_Recorder (mkPacket PING [] 0)
    = (mkRecorder [[x02]], None) /\
  binCodec_encode (mkPacket PING [] 0) = Ok [x02].
Proof.
  assert (Ht : valid_type PING) by (unfold valid_type, PING; lia).
  split; [exact Ht|].
  exact (proj2 (binCodec_writeTo_wire (mkPacket PING [] 0) Ht)).
Defined.

(** C8: for a packet with a valid type the string encoder calls the sink
    with the digit of the type and then with the payload, empty or not, so
    that the bytes written are the digit followed by the payload; on a
    non-empty input the string decoder answers with the type of the first
    byte, the remaining bytes and the flag 0 when that byte is one of
    '0'..'6', and with InvalidPacketType otherwise. *)
Theorem strCodec_wire (p : Packet) (d0 : byte) (rest : list byte) :
  valid_type (Type_ p) ->
  byte_to_Z (type_digit (Type_ p)) = 48 + Type_ p /\
  strCodec_writeTo new_Recorder p
    = (mkRecorder [[type_digit (Type_ p)]; Data p], None) /\
  strCodec_encode p = Ok (type_digit (Type_ p) :: Data p) /\
  strCodec_decode (d0 :: rest) =
  if is_type_digit d0
  then Ok (mkPacket (digit_type d0) rest 0)
  else Err (InvalidPacketType (byte_to_Z d0)).
Proof.
  intros Ht. split.
  { unfold type_digit. apply byte_to_of_Z. unfold valid_type in Ht. lia. }
  split.
  { unfold strCodec_writeTo. rewrite convertTypeToChar_valid by assumption.
    reflexivity. }
  split; [apply strCodec_encode_bytes, Ht | apply strCodec_decode_cons].
Qed.

(** The examples of C8: MESSAGE "hello" is written as "4hello", and
    "4hello" is read as MESSAGE "hello" with the flag 0. *)
Lemma strCodec_wire_witness :
  valid_type MESSAGE /\
  strCodec_encode (mkPacket MESSAGE (bytes "hello") 0) = Ok (bytes "4hello") /\
  strCodec_decode (bytes "4hello") = Ok (mkPacket MESSAGE (bytes "hello") 0).
Proof.
  assert (Ht : valid_type MESSAGE) by (unfold valid_type, MESSAGE; lia).
  split; [exact Ht|].
  exact (proj2 (proj2 (strCodec_wire (mkPacket MESSAGE (bytes "hello") 0)
                         "4"%byte (bytes "hello") Ht))).
Defined.

(** C9: each of the three decoders fails with EmptyInput on an empty
    buffer. *)
Theorem decode_empty_input (BINARY : PacketOption) :
  decode (binaryEncoder BINARY) [] = Err EmptyInput /\
  decode stringEncoder [] = Err EmptyInput /\
  decode (base64Encoder BINARY) [] = Err EmptyInput.
Proof. repeat split. Qed.

(** C10: the base64 decoder reads 'b' followed by a type digit as that
    type with an empty payload and the flag [BINARY], the very packet it
    reads from the digit alone; the two inputs differ, and no packet is
    encoded as the first of them. *)
Theorem b64Codec_decode_not_injective (BINARY : PacketOption) (d : byte) :
  is_type_digit d = true ->
  b64Codec_decode BINARY ["b"%byte; d]
    = Ok (mkPacket (digit_type d) [] BINARY) /\
  b64Codec_decode BINARY [d] = Ok (mkPacket (digit_type d) [] BINARY) /\
  ["b"%byte; d] <> [d] /\
  (forall p : Packet, b64Codec_encode p <> Ok ["b"%byte; d]).
Proof.
  intros Hd. split.
  { rewrite b64Codec_decode_long, Hd. reflexivity. }
  split.
  { rewrite b64Codec_decode_one, Hd. reflexivity. }
  split; [discriminate|].
  intros p. unfold b64Codec_encode, encode_with, b64Codec_writeTo.
  destruct (convertTypeToChar (Type_ p)) as [t|e]; [|discriminate].
  destruct (Data p) as [|s0 data] eqn:Ed; cbn -[base64.EncodeToString].
  - discriminate.
  - intros H.
    assert (He : base64.EncodeToString (s0 :: data) = []) by congruence.
    revert He. apply Base64Facts.EncodeToString_nonempty. discriminate.
Qed.

Lemma b64Codec_decode_not_injective_witness :
  is_type_digit "4"%byte = true /\
  b64Codec_decode 1 (bytes "b4") = Ok (mkPacket MESSAGE [] 1) /\
  b64Codec_decode 1 (bytes "4") = Ok (mkPacket MESSAGE [] 1).
Proof.
  assert (Hd : is_type_digit "4"%byte = true) by reflexivity.
  split; [exact Hd|].
  pose proof (b64Codec_decode_not_injective 1 "4"%byte Hd) as [H1 [H2 _]].
  split; [exact H1 | exact H2].
Defined.

(** * Further properties of the codecs *)

(** ** Shared facts *)

Lemma codecs_cases (BINARY : PacketOption) (c : packetCodec) :
  In c (codecs BINARY) ->
  c = binaryEncoder BINARY \/ c = stringEncoder \/ c = base64Encoder BINARY.
Proof. intros [H|[H|[H|[]]]]; auto. Qed.

Lemma is_type_digit_valid (c : byte) :
  is_type_digit c = true -> valid_type (digit_type c).
Proof. unfold is_type_digit, valid_type, digit_type. lia. Qed.

Lemma type_digit_type (c : byte) :
  is_type_digit c = true -> type_digit (digit_type c) = c.
Proof.
  intros _. unfold type_digit, digit_type.
  replace (48 + (byte_to_Z c - 48)) with (byte_to_Z c) by lia.
  apply byte_of_to_Z.
Qed.

Lemma convertCharToType_Ok (c : byte) (t : PacketType) :
  convertCharToType c = Ok t <-> is_type_digit c = true /\ t = digit_type c.
Proof.
  rewrite convertCharToType_spec. destruct (is_type_digit c); split.
  - intros H. injection H as <-. auto.
  - intros [_ ->]. reflexivity.
  - discriminate.
  - intros [H _]. discriminate.
Qed.

Lemma convertTypeToChar_Ok (t : PacketType) (c : byte) :
  convertTypeToChar t = Ok c <-> valid_type t /\ c = type_digit t.
Proof.
  rewrite convertTypeToChar_spec. destruct (valid_typeb t) eqn:E; split.
  - intros H. injection H as <-. split; [apply valid_typeb_spec, E | auto].
  - intros [_ ->]. reflexivity.
  - discriminate.
  - intros [H _]. apply valid_typeb_spec in H. congruence.
Qed.

(** What a codec reads from what it wrote, for a valid type: the type and
    the payload written, under the flag of the codec. *)
Lemma decode_of_encode (BINARY : PacketOption) (c : packetCodec)
    (flag : PacketOption) (p : Packet) (wire : list byte) :
  In (c, flag) (codec_flags BINARY) ->
  valid_type (Type_ p) ->
  encode c p = Ok wire ->
  decode c wire = Ok (mkPacket (Type_ p) (Data p) flag).
Proof.
  intros Hc Ht.
  destruct Hc as [Hc|[Hc|[Hc|[]]]]; injection Hc as <- <-;
    cbn [encode decode binaryEncoder stringEncoder base64Encoder].
  - rewrite binCodec_encode_bytes. intros H. injection H as <-.
    rewrite binCodec_decode_cons, binary_type_byte by assumption.
    apply valid_typeb_spec in Ht. rewrite Ht. reflexivity.
  - rewrite strCodec_encode_bytes by assumption. intros H. injection H as <-.
    rewrite strCodec_decode_cons.
    rewrite type_digit_is_digit, digit_type_digit by assumption. reflexivity.
  - rewrite b64Codec_encode_bytes by assumption. intros H. injection H as <-.
    destruct (Data p) as [|d data].
    + rewrite b64Codec_decode_one.
      rewrite type_digit_is_digit, digit_type_digit by assumption.
      reflexivity.
    + rewrite b64Codec_decode_long.
      change (Byte.eqb "b" "b") with true. cbn [negb].
      rewrite type_digit_is_digit, digit_type_digit by assumption.
      cbn [negb]. rewrite Base64Facts.DecodeString_EncodeToString.
      reflexivity.
Qed.

(** ** The type/char table *)

(** X1: the two conversions of the table are inverse to each other: a type
    is turned into a digit exactly when that digit is turned into the
    type.  In particular neither accepts a value the other cannot give. *)
Theorem type_char_table_inverse (t : PacketType) (c : byte) :
  convertTypeToChar t = Ok c <-> convertCharToType c = Ok t.
Proof.
  rewrite convertTypeToChar_Ok, convertCharToType_Ok. split.
  - intros [Ht ->]. split; [apply type_digit_is_digit, Ht|].
    symmetry. apply digit_type_digit, Ht.
  - intros [Hc ->]. split; [apply is_type_digit_valid, Hc|].
    symmetry. apply type_digit_type, Hc.
Qed.

(** ** Decoders *)

(** X2: a packet that a decoder returns has one of the seven valid types
    and carries the flag of its codec ([BINARY] for the binary and the
    base64 codec, zero for the string codec), whatever the input was. *)
Theorem decoded_packet_well_formed (BINARY : PacketOption) (c : packetCodec)
    (flag : PacketOption) (data : list byte) (p : Packet) :
  In (c, flag) (codec_flags BINARY) ->
  decode c data = Ok p ->
  valid_type (Type_ p) /\ Flag p = flag.
Proof.
  intros Hc.
  destruct Hc as [Hc|[Hc|[Hc|[]]]]; injection Hc as <- <-;
    cbn [decode binaryEncoder stringEncoder base64Encoder].
  - destruct data as [|d0 rest]; [discriminate|].
    rewrite binCodec_decode_cons.
    destruct (valid_typeb (byte_to_Z d0)) eqn:E; [|discriminate].
    intros H. injection H as <-. split; [apply valid_typeb_spec, E|reflexivity].
  - destruct data as [|d0 rest]; [discriminate|].
    rewrite strCodec_decode_cons.
    destruct (is_type_digit d0) eqn:E; [|discriminate].
    intros H. injection H as <-.
    split; [apply is_type_digit_valid, E|reflexivity].
  - destruct data as [|d0 [|d1 body]]; [discriminate | .. ].
    + rewrite b64Codec_decode_one.
      destruct (is_type_digit d0) eqn:E; [|discriminate].
      intros H. injection H as <-.
      split; [apply is_type_digit_valid, E|reflexivity].
    + rewrite b64Codec_decode_long.
      destruct (negb (Byte.eqb d0 "b")); [discriminate|].
      destruct (is_type_digit d1) eqn:E; [|discriminate]. cbn [negb].
      destruct (base64.DecodeString body); [|discriminate].
      intros H. injection H as <-.
      split; [apply is_type_digit_valid, E|reflexivity].
Qed.

(** X3: a decoder reports EmptyInput for the empty buffer and for no
    other input. *)
Theorem decode_EmptyInput_iff (BINARY : PacketOption) (c : packetCodec)
    (data : list byte) :
  In c (codecs BINARY) ->
  (decode c data = Err EmptyInput <-> data = []).
Proof.
  intros Hc. destruct (codecs_cases _ _ Hc) as [-> | [-> | ->]];
    cbn [decode binaryEncoder stringEncoder base64Encoder].
  - split; [|intros ->; reflexivity].
    destruct data as [|d0 rest]; [reflexivity|].
    rewrite binCodec_decode_cons.
    destruct (valid_typeb (byte_to_Z d0)); discriminate.
  - split; [|intros ->; reflexivity].
    destruct data as [|d0 rest]; [reflexivity|].
    rewrite strCodec_decode_cons. destruct (is_type_digit d0); discriminate.
  - split; [|intros ->; reflexivity].
    destruct data as [|d0 [|d1 body]]; [reflexivity | .. ].
    + rewrite b64Codec_decode_one. destruct (is_type_digit d0); discriminate.
    + rewrite b64Codec_decode_long.
      destruct (negb (Byte.eqb d0 "b")); [discriminate|].
      destruct (negb (is_type_digit d1)); [discriminate|].
      destruct (base64.DecodeString body); discriminate.
Qed.

(** ** Encoders and sinks *)

Lemma write_all_one {W : Type} `{Writer W} (writer : W) (p : list byte) :
  write_all writer [p] = Write writer p.
Proof.
  cbn [write_all]. destruct (Write writer p) as [w [e|]]; reflexivity.
Qed.

Lemma write_calls_bin (p : Packet) (BINARY : PacketOption) :
  write_calls (binaryEncoder BINARY) p =
  match Data p with
  | [] => [[byte_of_Z (Type_ p)]]
  | _ :: _ => [[byte_of_Z (Type_ p)]; Data p]
  end.
Proof. destruct p as [t [|d data] f]; reflexivity. Qed.

Lemma write_calls_str (p : Packet) :
  valid_type (Type_ p) ->
  write_calls stringEncoder p = [[type_digit (Type_ p)]; Data p].
Proof.
  intros Ht. unfold write_calls. cbn [writeTo stringEncoder].
  unfold strCodec_writeTo. rewrite convertTypeToChar_valid by assumption.
  reflexivity.
Qed.

Lemma write_calls_b64 (p : Packet) (BINARY : PacketOption) :
  valid_type (Type_ p) ->
  write_calls (base64Encoder BINARY) p =
  match Data p with
  | [] => [[type_digit (Type_ p)]]
  | _ :: _ => [["b"%byte]; [type_digit (Type_ p)];
               base64.EncodeToString (Data p)]
  end.
Proof.
  intros Ht. unfold write_calls. cbn [writeTo base64Encoder].
  unfold b64Codec_writeTo. rewrite convertTypeToChar_valid by assumption.
  destruct (Data p); reflexivity.
Qed.

Lemma writeTo_valid_write_all (BINARY : PacketOption) (c : packetCodec)
    (W : Type) (HW : Writer W) (writer : W) (p : Packet) :
  In c (codecs BINARY) ->
  valid_type (Type_ p) ->
  writeTo c W HW writer p = write_all writer (write_calls c p).
Proof.
  intros Hc Ht. destruct (codecs_cases _ _ Hc) as [-> | [-> | ->]].
  - rewrite write_calls_bin. cbn [writeTo binaryEncoder].
    unfold binCodec_writeTo.
    destruct (Data p) as [|d data]; cbn [length Nat.ltb Nat.leb write_all];
      destruct (Write writer [byte_of_Z (Type_ p)]) as [w [e|]];
      try reflexivity.
    destruct (Write w (d :: data)) as [w' [e|]]; reflexivity.
  - rewrite write_calls_str by assumption. cbn [writeTo stringEncoder].
    unfold strCodec_writeTo. rewrite convertTypeToChar_valid by assumption.
    cbn [write_all].
    destruct (Write writer [type_digit (Type_ p)]) as [w [e|]];
      [reflexivity|].
    destruct (Write w (Data p)) as [w' [e|]]; reflexivity.
  - rewrite write_calls_b64 by assumption. cbn [writeTo base64Encoder].
    unfold b64Codec_writeTo. rewrite convertTypeToChar_valid by assumption.
    destruct (Data p) as [|d data]; cbn [length Nat.ltb Nat.leb write_all].
    + destruct (Write writer [type_digit (Type_ p)]) as [w [e|]];
        reflexivity.
    + destruct (Write writer ["b"%byte]) as [w [e|]]; [reflexivity|].
      destruct (Write w [type_digit (Type_ p)]) as [w' [e|]]; [reflexivity|].
      destruct (Write w' (base64.EncodeToString (d :: data))) as [w'' [e|]];
        reflexivity.
Qed.

Lemma write_all_Buffer (pre : list byte) (bufs : list (list byte)) :
  write_all (mkBuffer pre) bufs = (mkBuffer (pre ++ concat bufs), None).
Proof.
  revert pre. induction bufs as [|p bufs IH]; intros pre; cbn [write_all concat].
  - rewrite app_nil_r. reflexivity.
  - unfold Write at 1, Buffer_Writer. cbn [Bytes].
    rewrite IH, app_assoc. reflexivity.
Qed.

Lemma write_all_Flaky (bufs : list (list byte)) :
  forall (n : nat) (acc : list byte),
  write_all (mkFlaky n acc) bufs =
  (mkFlaky (n - length bufs) (acc ++ concat (firstn n bufs)),
   if (n <? length bufs)%nat then Some (SinkWriteFailure 1) else None).
Proof.
  induction bufs as [|p bufs IH]; intros n acc.
  - cbn [write_all length]. rewrite Nat.sub_0_r, firstn_nil, app_nil_r.
    destruct n; reflexivity.
  - destruct n as [|n].
    + cbn. rewrite app_nil_r. reflexivity.
    + cbn [write_all]. unfold Write at 1, Flaky_Writer. cbn [room accepted].
      rewrite IH. cbn [firstn concat length Nat.sub]. rewrite app_assoc.
      reflexivity.
Qed.

Lemma text_encode_Ok_valid (BINARY : PacketOption) (c : packetCodec)
    (p : Packet) (wire : list byte) :
  In c [stringEncoder; base64Encoder BINARY] ->
  encode c p = Ok wire -> valid_type (Type_ p).
Proof.
  intros [<-|[<-|[]]]; cbn [encode stringEncoder base64Encoder];
    unfold strCodec_encode, b64Codec_encode, encode_with, strCodec_writeTo,
      b64Codec_writeTo;
    rewrite convertTypeToChar_spec;
    destruct (valid_typeb (Type_ p)) eqn:E;
    (apply valid_typeb_spec in E; auto) || discriminate.
Qed.

Lemma encode_is_concat (BINARY : PacketOption) (c : packetCodec) (p : Packet)
    (wire : list byte) :
  In c (codecs BINARY) ->
  encode c p = Ok wire ->
  concat (write_calls c p) = wire.
Proof.
  intros Hc. destruct (codecs_cases _ _ Hc) as [-> | [-> | ->]].
  - cbn [encode binaryEncoder]. rewrite binCodec_encode_bytes, write_calls_bin.
    intros H. injection H as <-.
    destruct (Data p); cbn; rewrite ?app_nil_r; reflexivity.
  - intros H.
    assert (Ht : valid_type (Type_ p))
      by (apply (text_encode_Ok_valid BINARY stringEncoder p wire);
          simpl; auto).
    revert H. cbn [encode stringEncoder].
    rewrite strCodec_encode_bytes, write_calls_str by assumption.
    intros H. injection H as <-. cbn. rewrite app_nil_r. reflexivity.
  - intros H.
    assert (Ht : valid_type (Type_ p))
      by (apply (text_encode_Ok_valid BINARY (base64Encoder BINARY) p wire);
          simpl; auto).
    revert H. cbn [encode base64Encoder].
    rewrite b64Codec_encode_bytes, write_calls_b64 by assumption.
    intros H. injection H as <-.
    destruct (Data p); cbn; rewrite ?app_nil_r; reflexivity.
Qed.

Lemma writeTo_is_write_all (BINARY : PacketOption) (c : packetCodec)
    (W : Type) (HW : Writer W) (writer : W) (p : Packet) (wire : list byte) :
  In c (codecs BINARY) ->
  encode c p = Ok wire ->
  writeTo c W HW writer p = write_all writer (write_calls c p).
Proof.
  intros Hc He. destruct (codecs_cases _ _ Hc) as [-> | [-> | ->]].
  - rewrite write_calls_bin. cbn [writeTo binaryEncoder].
    unfold binCodec_writeTo.
    destruct (Data p) as [|d data]; cbn [length Nat.ltb Nat.leb write_all];
      destruct (Write writer [byte_of_Z (Type_ p)]) as [w [e|]];
      try reflexivity.
    destruct (Write w (d :: data)) as [w' [e|]]; reflexivity.
  - apply (writeTo_valid_write_all BINARY); [exact Hc|].
    apply (text_encode_Ok_valid BINARY stringEncoder p wire); simpl; auto.
  - apply (writeTo_valid_write_all BINARY); [exact Hc|].
    apply (text_encode_Ok_valid BINARY (base64Encoder BINARY) p wire);
      simpl; auto.
Qed.

(** X4: on a [bytes.Buffer] that already holds [pre], [writeTo] leaves
    [pre] followed by exactly the bytes [encode] returns for the packet, and
    reports no error; so packets written one after the other are laid out
    back to back. *)
Theorem writeTo_appends_encoding (BINARY : PacketOption) (c : packetCodec)
    (p : Packet) (wire pre : list byte) :
  In c (codecs BINARY) ->
  encode c p = Ok wire ->
  writeTo c Buffer Buffer_Writer (mkBuffer pre) p
    = (mkBuffer (pre ++ wire), None).
Proof.
  intros Hc He.
  rewrite (writeTo_is_write_all BINARY c _ _ _ p wire Hc He).
  rewrite write_all_Buffer, (encode_is_concat BINARY c p wire Hc He).
  reflexivity.
Qed.

(** X5: on any sink, a [writeTo] whose packet can be encoded makes the
    [Write] calls it makes on a sink that never fails, in the same order,
    up to and including the first call the sink rejects; it returns the
    sink as that call left it, with that call's error.  The calls, put end
    to end, are the bytes [encode] returns. *)
Theorem writeTo_any_sink (BINARY : PacketOption) (c : packetCodec)
    (W : Type) (HW : Writer W) (writer : W) (p : Packet) (wire : list byte) :
  In c (codecs BINARY) ->
  encode c p = Ok wire ->
  writeTo c W HW writer p = write_all writer (write_calls c p) /\
  concat (write_calls c p) = wire.
Proof.
  intros Hc He. split.
  - apply (writeTo_is_write_all BINARY c W HW writer p wire Hc He).
  - apply (encode_is_concat BINARY c p wire Hc He).
Qed.

(** X6: on a sink that accepts [n] calls and rejects the next, [writeTo]
    leaves the bytes of its first [n] calls in the sink, nothing being taken
    back, and reports the sink's error exactly when it had more than [n]
    calls to make. *)
Theorem writeTo_failing_sink (BINARY : PacketOption) (c : packetCodec)
    (p : Packet) (wire acc : list byte) (n : nat) :
  In c (codecs BINARY) ->
  encode c p = Ok wire ->
  writeTo c Flaky Flaky_Writer (mkFlaky n acc) p =
  (mkFlaky (n - length (write_calls c p))
           (acc ++ concat (firstn n (write_calls c p))),
   if (n <? length (write_calls c p))%nat
   then Some (SinkWriteFailure 1) else None).
Proof.
  intros Hc He.
  rewrite (writeTo_is_write_all BINARY c _ _ _ p wire Hc He).
  apply write_all_Flaky.
Qed.

(** X7: the string and the base64 encoder fail exactly on a type outside
    the enumeration, and the error then is InvalidPacketType holding that
    type. *)
Theorem text_encode_error_iff (BINARY : PacketOption) (c : packetCodec)
    (p : Packet) (e : error) :
  In c [stringEncoder; base64Encoder BINARY] ->
  (encode c p = Err e <->
   ~ valid_type (Type_ p) /\ e = InvalidPacketType (Type_ p)).
Proof.
  intros [<-|[<-|[]]]; cbn [encode stringEncoder base64Encoder];
    unfold strCodec_encode, b64Codec_encode, encode_with, strCodec_writeTo,
      b64Codec_writeTo;
    rewrite convertTypeToChar_spec;
    destruct (valid_typeb (Type_ p)) eqn:E.
  - apply valid_typeb_spec in E. split; [discriminate|tauto].
  - split.
    + intros H. injection H as <-. rewrite <- valid_typeb_spec. split; congruence.
    + intros [_ ->]. reflexivity.
  - apply valid_typeb_spec in E.
    split; [destruct (Data p); discriminate | tauto].
  - split.
    + intros H. injection H as <-. rewrite <- valid_typeb_spec. split; congruence.
    + intros [_ ->]. reflexivity.
Qed.

(** X8: two packets with valid types that a codec encodes to the same
    bytes have the same type and the same payload. *)
Theorem encode_injective (BINARY : PacketOption) (c : packetCodec)
    (p q : Packet) (wire : list byte) :
  In c (codecs BINARY) ->
  valid_type (Type_ p) -> valid_type (Type_ q) ->
  encode c p = Ok wire -> encode c q = Ok wire ->
  Type_ p = Type_ q /\ Data p = Data q.
Proof.
  intros Hc Hp Hq Ep Eq.
  assert (Hf : exists flag, In (c, flag) (codec_flags BINARY)).
  { destruct (codecs_cases _ _ Hc) as [-> | [-> | ->]];
      [exists BINARY | exists 0 | exists BINARY]; simpl; auto. }
  destruct Hf as [flag Hf].
  pose proof (decode_of_encode BINARY c flag p wire Hf Hp Ep) as Dp.
  pose proof (decode_of_encode BINARY c flag q wire Hf Hq Eq) as Dq.
  rewrite Dp in Dq. injection Dq as -> ->. auto.
Qed.

(** X9: the binary and the string wire forms are canonical: encoding the
    packet that was decoded from an input gives that input back, byte for
    byte. *)
Theorem decode_then_encode (BINARY : PacketOption) (c : packetCodec)
    (data : list byte) (p : Packet) :
  In c [binaryEncoder BINARY; stringEncoder] ->
  decode c data = Ok p ->
  encode c p = Ok data.
Proof.
  intros [<-|[<-|[]]]; cbn [encode decode binaryEncoder stringEncoder];
    (destruct data as [|d0 rest]; [discriminate|]).
  - rewrite binCodec_decode_cons.
    destruct (valid_typeb (byte_to_Z d0)); [|discriminate].
    intros H. injection H as <-. rewrite binCodec_encode_bytes.
    cbn [Type_ Data]. rewrite byte_of_to_Z. reflexivity.
  - rewrite strCodec_decode_cons.
    destruct (is_type_digit d0) eqn:E; [|discriminate].
    intros H. injection H as <-.
    rewrite strCodec_encode_bytes by (apply is_type_digit_valid, E).
    cbn [Type_ Data]. rewrite type_digit_type by assumption. reflexivity.
Qed.

(** X11: an input the binary decoder accepts is refused by both text
    decoders: by the string decoder with InvalidPacketType, and by the
    base64 decoder with InvalidPacketType when the input is a single byte
    and with InvalidFraming otherwise. *)
Theorem binary_input_rejected_as_text (BINARY : PacketOption)
    (data : list byte) (p : Packet) :
  binCodec_decode BINARY data = Ok p ->
  strCodec_decode data = Err (InvalidPacketType (Type_ p)) /\
  b64Codec_decode BINARY data =
  Err (match data with
       | _ :: _ :: _ => InvalidFraming data
       | _ => InvalidPacketType (Type_ p)
       end).
Proof.
  destruct data as [|d0 rest]; [discriminate|].
  rewrite binCodec_decode_cons.
  destruct (valid_typeb (byte_to_Z d0)) eqn:E; [|discriminate].
  intros H. injection H as <-. cbn [Type_].
  unfold valid_typeb in E.
  assert (Ed : is_type_digit d0 = false) by (unfold is_type_digit; lia).
  split.
  - rewrite strCodec_decode_cons, Ed. reflexivity.
  - destruct rest as [|d1 body].
    + rewrite b64Codec_decode_one, Ed. reflexivity.
    + rewrite b64Codec_decode_long.
      destruct (Byte.eqb d0 "b") eqn:Eb; [|reflexivity].
      apply Byte.byte_dec_bl in Eb. subst d0. discriminate.
Qed.

(** X12: the base64 decoder answers InvalidFraming exactly for the inputs
    of two bytes or more whose first byte is not 'b', and the error holds
    the whole input. *)
Theorem b64Codec_decode_InvalidFraming_iff (BINARY : PacketOption)
    (data raw : list byte) :
  b64Codec_decode BINARY data = Err (InvalidFraming raw) <->
  raw = data /\ (2 <= length data)%nat /\ hd "b"%byte data <> "b"%byte.
Proof.
  destruct data as [|d0 [|d1 body]].
  - split; [discriminate|]. intros (_ & H & _). cbn in H. lia.
  - rewrite b64Codec_decode_one. split.
    + destruct (is_type_digit d0); discriminate.
    + intros (_ & H & _). cbn in H. lia.
  - rewrite b64Codec_decode_long. cbn [hd length].
    destruct (Byte.eqb d0 "b") eqn:Eb; cbn [negb].
    + apply Byte.byte_dec_bl in Eb. split.
      * destruct (negb (is_type_digit d1)); [discriminate|].
        destruct (base64.DecodeString body); discriminate.
      * intros (_ & _ & H). congruence.
    + split.
      * intros H. injection H as <-. repeat split; [lia|].
        intros ->. discriminate.
      * intros (-> & _ & _). reflexivity.
Qed.

(** X13: a base64 body that holds, anywhere, a byte that is neither in
    the alphabet nor a line break nor the padding character makes the
    base64 decoder fail with InvalidPayloadEncoding. *)
Theorem b64Codec_decode_foreign_byte (BINARY : PacketOption) (d1 : byte)
    (body : list byte) :
  is_type_digit d1 = true ->
  existsb base64.foreign body = true ->
  exists offset,
    b64Codec_decode BINARY ("b"%byte :: d1 :: body)
      = Err (InvalidPayloadEncoding offset).
Proof.
  intros Hd Hf. rewrite b64Codec_decode_long, Hd.
  change (Byte.eqb "b" "b") with true. cbn [negb].
  destruct (Base64Facts.DecodeString_foreign body Hf) as [offset ->].
  eauto.
Qed.

(** ** The base64 wire form *)

Lemma sextet_base64_text (val shift : Z) :
  base64_text (base64.sextet val shift) = true.
Proof.
  unfold base64_text, base64.sextet.
  pose proof (Base64Facts.sextet_range val shift) as Hr.
  rewrite Base64Facts.decodeMap_encode_sextet by assumption.
  destruct (Z.eqb_spec (Z.land (Z.shiftr val shift) 0x3F) 0xFF); [lia|].
  reflexivity.
Qed.

Lemma EncodeToString_base64_text (src : list byte) :
  forallb base64_text (base64.EncodeToString src) = true.
Proof.
  induction src as [|s0|s0 s1|s0 s1 s2 rest IH] using Base64Facts.list_ind3;
    cbn [base64.EncodeToString forallb];
    rewrite ?sextet_base64_text, ?IH; reflexivity.
Qed.

Lemma EncodeToString_length (src : list byte) :
  length (base64.EncodeToString src) = (4 * ((length src + 2) / 3))%nat.
Proof.
  induction src as [|s0|s0 s1|s0 s1 s2 rest IH] using Base64Facts.list_ind3;
    try reflexivity.
  cbn [base64.EncodeToString length]. rewrite IH.
  replace (S (S (S (length rest))) + 2)%nat
    with (length rest + 2 + 1 * 3)%nat by lia.
  rewrite Nat.div_add by lia. lia.
Qed.

(** X10: whatever the payload, the base64 encoder writes only characters
    of the base64 alphabet and the padding character; it writes one byte
    for an empty payload and [2 + 4 * ceil(n / 3)] bytes for a payload of
    [n > 0] bytes. *)
Theorem b64Codec_encode_text (p : Packet) (wire : list byte) :
  b64Codec_encode p = Ok wire ->
  forallb base64_text wire = true /\
  length wire = match Data p with
                | [] => 1%nat
                | _ :: _ => (2 + 4 * ((length (Data p) + 2) / 3))%nat
                end.
Proof.
  intros He.
  assert (Ht : valid_type (Type_ p)).
  { apply (text_encode_Ok_valid 0 (base64Encoder 0) p wire); simpl; auto. }
  rewrite b64Codec_encode_bytes in He by assumption. injection He as <-.
  assert (Hd : base64_text (type_digit (Type_ p)) = true).
  { destruct (valid_type_cases _ Ht) as [E|[E|[E|[E|[E|[E|E]]]]]];
      rewrite E; reflexivity. }
  destruct (Data p) as [|d data].
  - cbn [forallb length]. rewrite Hd. auto.
  - cbn [forallb length]. rewrite Hd, EncodeToString_base64_text.
    rewrite EncodeToString_length. auto.
Qed.

(** ** Line breaks in a base64 body *)

Module NewlineFacts.
Import base64.

Lemma newline_not_in_alphabet (c : byte) :
  is_newline c = true -> decodeMap c = 0xFF /\ Byte.eqb c padChar = false.
Proof.
  unfold is_newline. intros H. apply orb_true_iff in H.
  destruct H as [H|H]; apply Byte.byte_dec_bl in H; subst c; split; reflexivity.
Qed.

Lemma skip_newlines_strip (src : list byte) (si : Z) :
  exists si',
    (skip_newlines src si = ([], si') /\ strip_newlines src = []) \/
    (exists c rest,
        skip_newlines src si = (c :: rest, si') /\
        is_newline c = false /\
        strip_newlines src = c :: strip_newlines rest).
Proof.
  revert si. induction src as [|c src IH]; intros si.
  - exists si. left. split; reflexivity.
  - cbn [skip_newlines strip_newlines filter].
    destruct (is_newline c) eqn:En; cbn [negb].
    + apply IH.
    + exists si. right. exists c, src. repeat split. exact En.
Qed.

Lemma skip_newlines_stripped (src : list byte) (si : Z) :
  skip_newlines (strip_newlines src) si = (strip_newlines src, si).
Proof.
  induction src as [|c src IH]; [reflexivity|].
  cbn [strip_newlines filter]. destruct (is_newline c) eqn:En; cbn [negb].
  - apply IH.
  - cbn [skip_newlines]. rewrite En. reflexivity.
Qed.

Lemma decode_end_strip (src : list byte) (si si' : Z) (dbuf : list Z) :
  same_outcome (decode_end src si dbuf)
               (decode_end (strip_newlines src) si' dbuf).
Proof.
  unfold decode_end. rewrite skip_newlines_stripped.
  destruct (skip_newlines_strip src si)
    as [sj [[-> ->]|(c & rest & -> & _ & ->)]]; cbn; auto.
Qed.

Lemma decode_padding_strip (src : list byte) (si si' : Z) (dbuf : list Z) :
  same_outcome (decode_padding src si dbuf)
               (decode_padding (strip_newlines src) si' dbuf).
Proof.
  unfold decode_padding.
  destruct (length dbuf) as [|[|[|n]]]; cbn [same_outcome]; auto;
    [|apply decode_end_strip].
  rewrite skip_newlines_stripped.
  destruct (skip_newlines_strip src si)
    as [sj [[-> ->]|(c & rest & -> & _ & ->)]]; cbn [same_outcome]; auto.
  destruct (Byte.eqb c padChar); cbn [same_outcome]; auto.
  apply decode_end_strip.
Qed.

Lemma Decode_strip (src : list byte) :
  forall (si si' : Z) (dbuf : list Z),
  same_outcome (Decode src si dbuf) (Decode (strip_newlines src) si' dbuf).
Proof.
  induction src as [|c src IH]; intros si si' dbuf.
  - cbn. destruct dbuf; cbn; auto.
  - cbn [strip_newlines filter]. destruct (is_newline c) eqn:En; cbn [negb].
    + cbn [Decode]. destruct (newline_not_in_alphabet c En) as [-> _].
      cbn [Z.eqb negb]. rewrite En. apply IH.
    + cbn [Decode]. rewrite En.
      destruct (negb (decodeMap c =? 0xFF)).
      * destruct (length (dbuf ++ [decodeMap c]) =? 4)%nat; [|apply IH].
        specialize (IH (si + 1) (si' + 1) []).
        fold (strip_newlines src).
        destruct (Decode src (si + 1) []),
                 (Decode (strip_newlines src) (si' + 1) []);
          cbn [same_outcome] in *; congruence || auto.
      * destruct (negb (Byte.eqb c padChar)); cbn [same_outcome]; auto.
        apply decode_padding_strip.
Qed.

End NewlineFacts.

(** X14: carriage returns and line feeds in the base64 body do not change
    what the base64 decoder returns: the input with the line breaks of its
    body taken out is decoded to the same packet. *)
Theorem b64Codec_decode_ignores_newlines (BINARY : PacketOption)
    (d0 d1 : byte) (body : list byte) (p : Packet) :
  b64Codec_decode BINARY (d0 :: d1 :: body) = Ok p <->
  b64Codec_decode BINARY (d0 :: d1 :: strip_newlines body) = Ok p.
Proof.
  rewrite !b64Codec_decode_long.
  destruct (negb (Byte.eqb d0 "b")); [split; discriminate|].
  destruct (negb (is_type_digit d1)); [reflexivity|].
  pose proof (NewlineFacts.Decode_strip body 0 0 []) as H.
  fold (base64.DecodeString body) in H.
  fold (base64.DecodeString (strip_newlines body)) in H.
  destruct (base64.DecodeString body),
           (base64.DecodeString (strip_newlines body));
    cbn [same_outcome] in H; subst; try contradiction; [reflexivity|].
  split; discriminate.
Qed.

(** X15: for a packet without payload the base64 encoder and the string
    encoder return the same result, the same digit or the same error. *)
Theorem b64_short_form_is_string_form (p : Packet) :
  Data p = [] -> b64Codec_encode p = strCodec_encode p.
Proof.
  intros Hd. unfold b64Codec_encode, strCodec_encode, encode_with,
    b64Codec_writeTo, strCodec_writeTo.
  rewrite Hd. destruct (convertTypeToChar (Type_ p)); reflexivity.
Qed.

(** ** The extra properties at concrete inputs *)

Lemma decoded_packet_well_formed_witness :
  In (stringEncoder, 0) (codec_flags 1) /\
  decode stringEncoder (bytes "4hello")
    = Ok (mkPacket MESSAGE (bytes "hello") 0) /\
  valid_type MESSAGE /\ 0 = 0.
Proof.
  assert (Hc : In (stringEncoder, 0) (codec_flags 1)) by (simpl; auto).
  assert (Hd : decode stringEncoder (bytes "4hello")
               = Ok (mkPacket MESSAGE (bytes "hello") 0)) by reflexivity.
  split; [exact Hc|]. split; [exact Hd|].
  exact (decoded_packet_well_formed 1 stringEncoder 0 (bytes "4hello")
           (mkPacket MESSAGE (bytes "hello") 0) Hc Hd).
Defined.

Lemma decode_EmptyInput_iff_witness :
  In (base64Encoder 1) (codecs 1) /\
  decode (base64Encoder 1) [] = Err EmptyInput.
Proof.
  assert (Hc : In (base64Encoder 1) (codecs 1)) by (simpl; auto).
  split; [exact Hc|].
  exact (proj2 (decode_EmptyInput_iff 1 (base64Encoder 1) [] Hc) eq_refl).
Defined.

Lemma writeTo_appends_encoding_witness :
  In stringEncoder (codecs 1) /\
  encode stringEncoder (mkPacket MESSAGE (bytes "hello") 0)
    = Ok (bytes "4hello") /\
  writeTo stringEncoder Buffer Buffer_Writer (mkBuffer (bytes "2"))
    (mkPacket MESSAGE (bytes "hello") 0)
    = (mkBuffer (bytes "24hello"), None).
Proof.
  assert (Hc : In stringEncoder (codecs 1)) by (simpl; auto).
  assert (He : encode stringEncoder (mkPacket MESSAGE (bytes "hello") 0)
               = Ok (bytes "4hello")) by reflexivity.
  split; [exact Hc|]. split; [exact He|].
  exact (writeTo_appends_encoding 1 stringEncoder
           (mkPacket MESSAGE (bytes "hello") 0) (bytes "4hello") (bytes "2")
           Hc He).
Defined.

Lemma writeTo_any_sink_witness :
  In (base64Encoder 1) (codecs 1) /\
  encode (base64Encoder 1) (mkPacket OPEN (bytes "abc") 0)
    = Ok (bytes "b0YWJj") /\
  writeTo (base64Encoder 1) Recorder Recorder_Writer new_Recorder
    (mkPacket OPEN (bytes "abc") 0)
    = write_all new_Recorder [bytes "b"; bytes "0"; bytes "YWJj"] /\
  concat [bytes "b"; bytes "0"; bytes "YWJj"] = bytes "b0YWJj".
Proof.
  assert (Hc : In (base64Encoder 1) (codecs 1)) by (simpl; auto).
  assert (He : encode (base64Encoder 1) (mkPacket OPEN (bytes "abc") 0)
               = Ok (bytes "b0YWJj")) by reflexivity.
  split; [exact Hc|]. split; [exact He|].
  exact (writeTo_any_sink 1 (base64Encoder 1) Recorder Recorder_Writer
           new_Recorder (mkPacket OPEN (bytes "abc") 0) (bytes "b0YWJj")
           Hc He).
Defined.

Lemma writeTo_failing_sink_witness :
  In (base64Encoder 1) (codecs 1) /\
  encode (base64Encoder 1) (mkPacket OPEN (bytes "abc") 0)
    = Ok (bytes "b0YWJj") /\
  writeTo (base64Encoder 1) Flaky Flaky_Writer (mkFlaky 2 [])
    (mkPacket OPEN (bytes "abc") 0)
    = (mkFlaky 0 (bytes "b0"), Some (SinkWriteFailure 1)).
Proof.
  assert (Hc : In (base64Encoder 1) (codecs 1)) by (simpl; auto).
  assert (He : encode (base64Encoder 1) (mkPacket OPEN (bytes "abc") 0)
               = Ok (bytes "b0YWJj")) by reflexivity.
  split; [exact Hc|]. split; [exact He|].
  exact (writeTo_failing_sink 1 (base64Encoder 1)
           (mkPacket OPEN (bytes "abc") 0) (bytes "b0YWJj") [] 2 Hc He).
Defined.

Lemma text_encode_error_iff_witness :
  In stringEncoder [stringEncoder; base64Encoder 1] /\
  (encode stringEncoder (mkPacket 7 [] 0) = Err (InvalidPacketType 7) <->
   ~ valid_type 7 /\ InvalidPacketType 7 = InvalidPacketType 7).
Proof.
  assert (Hc : In stringEncoder [stringEncoder; base64Encoder 1])
    by (simpl; auto).
  split; [exact Hc|].
  exact (text_encode_error_iff 1 stringEncoder (mkPacket 7 [] 0)
           (InvalidPacketType 7) Hc).
Defined.

Lemma encode_injective_witness :
  In stringEncoder (codecs 1) /\
  valid_type MESSAGE /\
  encode stringEncoder (mkPacket MESSAGE (bytes "hello") 0)
    = Ok (bytes "4hello") /\
  encode stringEncoder (mkPacket MESSAGE (bytes "hello") 1)
    = Ok (bytes "4hello") /\
  MESSAGE = MESSAGE /\ bytes "hello" = bytes "hello".
Proof.
  assert (Hc : In stringEncoder (codecs 1)) by (simpl; auto).
  assert (Ht : valid_type MESSAGE) by (unfold valid_type, MESSAGE; lia).
  assert (Hp : encode stringEncoder (mkPacket MESSAGE (bytes "hello") 0)
               = Ok (bytes "4hello")) by reflexivity.
  assert (Hq : encode stringEncoder (mkPacket MESSAGE (bytes "hello") 1)
               = Ok (bytes "4hello")) by reflexivity.
  split; [exact Hc|]. split; [exact Ht|]. split; [exact Hp|].
  split; [exact Hq|].
  exact (encode_injective 1 stringEncoder
           (mkPacket MESSAGE (bytes "hello") 0)
           (mkPacket MESSAGE (bytes "hello") 1) (bytes "4hello")
           Hc Ht Ht Hp Hq).
Defined.

Lemma decode_then_encode_witness :
  In (binaryEncoder 1) [binaryEncoder 1; stringEncoder] /\
  decode (binaryEncoder 1) (x04 :: bytes "hi")
    = Ok (mkPacket MESSAGE (bytes "hi") 1) /\
  encode (binaryEncoder 1) (mkPacket MESSAGE (bytes "hi") 1)
    = Ok (x04 :: bytes "hi").
Proof.
  assert (Hc : In (binaryEncoder 1) [binaryEncoder 1; stringEncoder])
    by (simpl; auto).
  assert (Hd : decode (binaryEncoder 1) (x04 :: bytes "hi")
               = Ok (mkPacket MESSAGE (bytes "hi") 1)) by reflexivity.
  split; [exact Hc|]. split; [exact Hd|].
  exact (decode_then_encode 1 (binaryEncoder 1) (x04 :: bytes "hi")
           (mkPacket MESSAGE (bytes "hi") 1) Hc Hd).
Defined.

Lemma b64Codec_encode_text_witness :
  b64Codec_encode (mkPacket OPEN (bytes "abcd") 0) = Ok (bytes "b0YWJjZA==") /\
  forallb base64_text (bytes "b0YWJjZA==") = true /\
  length (bytes "b0YWJjZA==") = 10%nat.
Proof.
  assert (He : b64Codec_encode (mkPacket OPEN (bytes "abcd") 0)
               = Ok (bytes "b0YWJjZA==")) by reflexivity.
  split; [exact He|].
  exact (b64Codec_encode_text (mkPacket OPEN (bytes "abcd") 0)
           (bytes "b0YWJjZA==") He).
Defined.

Lemma binary_input_rejected_as_text_witness :
  binCodec_decode 1 (x04 :: bytes "hi")
    = Ok (mkPacket MESSAGE (bytes "hi") 1) /\
  strCodec_decode (x04 :: bytes "hi") = Err (InvalidPacketType 4) /\
  b64Codec_decode 1 (x04 :: bytes "hi")
    = Err (InvalidFraming (x04 :: bytes "hi")).
Proof.
  assert (Hd : binCodec_decode 1 (x04 :: bytes "hi")
               = Ok (mkPacket MESSAGE (bytes "hi") 1)) by reflexivity.
  split; [exact Hd|].
  exact (binary_input_rejected_as_text 1 (x04 :: bytes "hi")
           (mkPacket MESSAGE (bytes "hi") 1) Hd).
Defined.

Lemma b64Codec_decode_foreign_byte_witness :
  is_type_digit "4"%byte = true /\
  existsb base64.foreign (bytes "aGV!bG8=") = true /\
  exists offset,
    b64Codec_decode 1 (bytes "b4aGV!bG8=") = Err (InvalidPayloadEncoding offset).
Proof.
  assert (Hd : is_type_digit "4"%byte = true) by reflexivity.
  assert (Hf : existsb base64.foreign (bytes "aGV!bG8=") = true)
    by reflexivity.
  split; [exact Hd|]. split; [exact Hf|].
  exact (b64Codec_decode_foreign_byte 1 "4"%byte (bytes "aGV!bG8=") Hd Hf).
Defined.

Lemma b64_short_form_is_string_form_witness :
  Data (mkPacket NOOP [] 0) = [] /\
  b64Codec_encode (mkPacket NOOP [] 0) = strCodec_encode (mkPacket NOOP [] 0).
Proof.
  split; [reflexivity|].
  exact (b64_short_form_is_string_form (mkPacket NOOP [] 0) eq_refl).
Defined.
